(** * scripts/gen-docs.py: the documentation renderer of url-cleaner

    The script loads the bundled cleaner (a JSON document), takes its
    [docs] object, deletes the keys [name] and [description] from it and
    prints the rest as a Markdown outline with the recursive function
    [thing], which keeps the Python type of the value it handled last in
    the module-level variable [last].

    The embedding follows the script statement by statement.  The process
    state is a record: the object bound to the module variable [x] (the
    only mutable object the script holds), the global [last] and the lines
    written to standard output, one list element for each call of
    [print]. *)

From Stdlib Require Import String Ascii List ZArith SpecFloat Bool Arith Lia.
Import ListNotations.
Local Open Scope string_scope.
Local Open Scope list_scope.

Set Warnings "-register-all".

(** ** Values produced by [json.loads] *)

(** A JSON object becomes a Python [dict], which iterates in insertion
    order: a [dict] is the sequence of its entries.  [json.loads] never
    yields two entries with one key. *)
Inductive value : Type :=
| VNull
| VBool (b : bool)
| VInt (z : Z)
| VFloat (f : spec_float)
| VStr (s : string)
| VList (l : list value)
| VDict (d : dict)
with dict : Type :=
| DNil
| DCons (k : string) (v : value) (rest : dict).

Scheme value_dict_ind := Induction for value Sort Prop
  with dict_value_ind := Induction for dict Sort Prop.

(** The entries of a dict, in iteration order ([x.items()]). *)
Fixpoint items (x : dict) : list (string * value) :=
  match x with
  | DNil => []
  | DCons k v rest => (k, v) :: items rest
  end.

(** [x[k]] on a dict, [None] where Python raises [KeyError]. *)
Fixpoint dict_get (k : string) (x : dict) : option value :=
  match x with
  | DNil => None
  | DCons k' v rest => if String.eqb k k' then Some v else dict_get k rest
  end.

(** The entries left by [del x[k]]. *)
Fixpoint dict_remove (k : string) (x : dict) : dict :=
  match x with
  | DNil => DNil
  | DCons k' v rest =>
      if String.eqb k k' then dict_remove k rest
      else DCons k' v (dict_remove k rest)
  end.

(** ** Python exceptions the script can raise after parsing *)

Inductive error : Type :=
| KeyError (k : string)
| TypeError
| AttributeError.

Inductive result (A : Type) : Type :=
| Ok (a : A)
| Raise (e : error).
Arguments Ok {A} a.
Arguments Raise {A} e.

(** [v[k]] with a string subscript: only a dict accepts one. *)
Definition getitem (v : value) (k : string) : result value :=
  match v with
  | VDict d =>
      match dict_get k d with
      | Some w => Ok w
      | None => Raise (KeyError k)
      end
  | _ => Raise TypeError
  end.

(** [del v[k]] with a string subscript; the result is the object after
    the deletion. *)
Definition delitem (v : value) (k : string) : result value :=
  match v with
  | VDict d =>
      match dict_get k d with
      | Some _ => Ok (VDict (dict_remove k d))
      | None => Raise (KeyError k)
      end
  | _ => Raise TypeError
  end.

(** ** String methods used on keys *)

Definition is_upper (c : ascii) : bool :=
  Nat.leb 65 (nat_of_ascii c) && Nat.leb (nat_of_ascii c) 90.

Definition is_lower (c : ascii) : bool :=
  Nat.leb 97 (nat_of_ascii c) && Nat.leb (nat_of_ascii c) 122.

Definition is_cased (c : ascii) : bool := is_upper c || is_lower c.

Definition to_upper (c : ascii) : ascii :=
  if is_lower c then ascii_of_nat (nat_of_ascii c - 32) else c.

Definition to_lower (c : ascii) : ascii :=
  if is_upper c then ascii_of_nat (nat_of_ascii c + 32) else c.

(** [s.replace(a, b)] for one-character [a] and [b]. *)
Fixpoint replace (a b : ascii) (s : string) : string :=
  match s with
  | EmptyString => EmptyString
  | String c r => String (if Ascii.eqb c a then b else c) (replace a b r)
  end.

(** [s.title()]: a character that follows a cased character is lowercased,
    every other character is uppercased; [prev] tells whether the previous
    character was cased.  Characters are ASCII, as the keys of the bundled
    cleaner are. *)
Fixpoint title_from (prev : bool) (s : string) : string :=
  match s with
  | EmptyString => EmptyString
  | String c r =>
      String (if prev then to_lower c else to_upper c) (title_from (is_cased c) r)
  end.

Definition title (s : string) : string := title_from false s.

(** ["#" * i] *)
Fixpoint hashes (i : nat) : string :=
  match i with
  | O => EmptyString
  | S j => String "#"%char (hashes j)
  end.

(** ** Process state *)

(** The values [last] takes besides [None]: the type objects [dict],
    [str] and [list]. *)
Inductive pytype : Type := py_dict | py_str | py_list.

Definition pytype_eqb (a b : pytype) : bool :=
  match a, b with
  | py_dict, py_dict | py_str, py_str | py_list, py_list => true
  | _, _ => false
  end.

Record state : Type := mkState {
  doc : option value;       (* the object bound to [x] in the main block *)
  last : option pytype;     (* the global [last] *)
  out : list string         (* standard output, a line for each [print] *)
}.

(** The state the interpreter starts the script in: [x] unbound,
    [last = None], nothing written. *)
Definition init : state := mkState None None [].

Definition print (line : string) (st : state) : state :=
  mkState (doc st) (last st) (out st ++ [line]).

Definition set_last (t : pytype) (st : state) : state :=
  mkState (doc st) (Some t) (out st).

Definition set_doc (v : value) (st : state) : state :=
  mkState (Some v) (last st) (out st).

(** The bytes written to standard output: [print] ends each line with a
    newline. *)
Fixpoint stdout_text (lines : list string) : string :=
  match lines with
  | [] => EmptyString
  | l :: r => l ++ String "010"%char (stdout_text r)
  end.

(** ** The renderer *)

Section Renderer.

(** [str(v)] for a value that is not a string: the text [print] writes for
    it.  It belongs to the Python runtime and is left open. *)
Variable str_other : value -> string.

(** The text [print(line)] writes for an element of a list. *)
Definition str (line : value) : string :=
  match line with
  | VStr s => s
  | _ => str_other line
  end.

(** [last is not None and last != dict] *)
Definition last_is_other (l : option pytype) : bool :=
  match l with
  | None => false
  | Some t => negb (pytype_eqb t py_dict)
  end.

(** [print("#"*i, k.replace("_", " ").title())]: [print] joins its two
    arguments with one space. *)
Definition heading (i : nat) (k : string) : string :=
  hashes i ++ " " ++ title (replace "_" " " k).

(** [f"- `{k}`: {v}"] *)
Definition bullet (k v : string) : string :=
  "- `" ++ k ++ "`: " ++ v.

(** [for line in v: print(line)] *)
Definition print_all (v : list value) (st : state) : state :=
  fold_left (fun st line => print (str line) st) v st.

(** [thing(x, i)], run from state [st]. *)
Fixpoint thing (x : dict) (i : nat) (st : state) {struct x} : state :=
  match x with
  | DNil => st
  | DCons k v rest =>
      thing rest i
        match v with
        | VDict d =>
            let st1 := if last_is_other (last st) then print "" st else st in
            let st2 := set_last py_dict st1 in
            let st3 := print (heading i k) st2 in
            let st4 := print "" st3 in
            thing d (S i) st4
        | VStr s =>
            set_last py_str (print (bullet k s) st)
        | VList l =>
            set_last py_list (print_all l st)
        | _ => st
        end
  end.

(** The main block, run on the value [json.loads] returned.  The run ends
    with the exception raised, if any, and the state reached. *)
Definition main (top : value) : option error * state :=
  match getitem top "docs" with
  | Raise e => (Some e, init)
  | Ok x0 =>
      let st0 := set_doc x0 init in
      match delitem x0 "name" with
      | Raise e => (Some e, st0)
      | Ok x1 =>
          let st1 := set_doc x1 st0 in
          match delitem x1 "description" with
          | Raise e => (Some e, st1)
          | Ok x2 =>
              let st2 := set_doc x2 st1 in
              match x2 with
              | VDict d => (None, thing d 3 st2)
              | _ => (Some AttributeError, st2)
              end
          end
      end
  end.

End Renderer.

(** ** The flattened emission order *)

(** What the traversal hands to [print], entry by entry: a dict entry is a
    Group (with the depth [i] of the call that meets it), a string entry
    an Option, a list entry RawLines.  Entries of another type take no
    branch of [thing] and are no emission. *)
Inductive emission : Type :=
| EGroup (i : nat) (k : string)
| EOption (k v : string)
| ERawLines (l : list value).

Definition kind_of (e : emission) : pytype :=
  match e with
  | EGroup _ _ => py_dict
  | EOption _ _ => py_str
  | ERawLines _ => py_list
  end.

(** The emissions of [thing(x, i)] in the order the depth-first walk
    reaches them. *)
Fixpoint emissions (x : dict) (i : nat) : list emission :=
  match x with
  | DNil => []
  | DCons k v rest =>
      match v with
      | VDict d => EGroup i k :: emissions d (S i)
      | VStr s => [EOption k s]
      | VList l => [ERawLines l]
      | _ => []
      end ++ emissions rest i
  end.

(** The kind of the last emission of [es], [prev] when there is none. *)
Definition final_kind (prev : option pytype) (es : list emission) : option pytype :=
  List.last (map (fun e => Some (kind_of e)) es) prev.

Section Flat.

Variable str_other : value -> string.

(** The lines of one emission, without any separator. *)
Definition body (e : emission) : list string :=
  match e with
  | EGroup i k => [heading i k; ""]
  | EOption k v => [bullet k v]
  | ERawLines l => map (str str_other) l
  end.

(** The blank-line law as the code has it: a Group emission is preceded by
    a blank line when the emission before it was an Option or RawLines. *)
Definition blank_before (prev : option pytype) (e : emission) : list string :=
  match e, prev with
  | EGroup _ _, Some py_str => [""]
  | EGroup _ _, Some py_list => [""]
  | _, _ => []
  end.

Fixpoint render (prev : option pytype) (es : list emission) : list string :=
  match es with
  | [] => []
  | e :: r => blank_before prev e ++ body e ++ render (Some (kind_of e)) r
  end.

(** The blank-line law in the words of the specification: a Group emission
    is preceded by a blank line when the emission before it was a Group. *)
Definition spec_blank_before (prev : option pytype) (e : emission) : list string :=
  match e, prev with
  | EGroup _ _, Some py_dict => [""]
  | _, _ => []
  end.

Fixpoint spec_render (prev : option pytype) (es : list emission) : list string :=
  match es with
  | [] => []
  | e :: r => spec_blank_before prev e ++ body e ++ spec_render (Some (kind_of e)) r
  end.

End Flat.

(** ** Occurrences of groups *)


(** Values that are neither [dict], [str] nor [list]. *)
Definition is_other (v : value) : bool :=
  match v with
  | VDict _ | VStr _ | VList _ => false
  | _ => true
  end.

(** The lines a run wrote, past those that were there when it started. *)
Definition written (before after : state) : list string :=
  skipn (length (out before)) (out after).

(** A renderer for values that are not strings, for the concrete runs
    below, none of which prints such a value. *)
Definition no_str (v : value) : string := EmptyString.

(** Whether position [n] of [s] comes right after a cased character. *)
Definition after_cased (s : string) (n : nat) : bool :=
  match n with
  | O => false
  | S m => match String.get m s with
           | Some p => is_cased p
           | None => false
           end
  end.

(** ** Documents for the concrete runs *)

(** An Option entry followed by an empty Group entry. *)
Definition option_then_group : dict :=
  DCons "a" (VStr "x") (DCons "g" (VDict DNil) DNil).

(** A group under three levels of nesting. *)
Definition nested_groups : dict :=
  DCons "intro" (VStr "text")
    (DCons "a" (VDict (DCons "b" (VDict (DCons "c_d" (VDict DNil) DNil)) DNil))
       DNil).

(** A bundled cleaner whose [docs] has a name and no description. *)
Definition no_description : value :=
  VDict (DCons "docs"
           (VDict (DCons "name" (VStr "n")
                  (DCons "general" (VDict (DCons "t" (VStr "s") DNil)) DNil)))
           DNil).

(** The example document of the specification. *)
Definition general_timeout : value :=
  VDict (DCons "docs" (VDict
    (DCons "name" (VStr "n")
    (DCons "description" (VStr "d")
    (DCons "general"
       (VDict (DCons "timeout" (VStr "Request timeout in seconds.") DNil))
     DNil)))) DNil).

(** ** Notions for the properties of whole documents *)

(** The dict with the entries of [x] followed by those of [y]. *)
Fixpoint dict_app (x y : dict) : dict :=
  match x with
  | DNil => y
  | DCons k v rest => DCons k v (dict_app rest y)
  end.

(** [EntryAt x n k v]: the entry [k: v] occurs in [x] under [n] enclosing
    groups. *)
Inductive EntryAt : dict -> nat -> string -> value -> Prop :=
| EntryHere k v rest : EntryAt (DCons k v rest) 0 k v
| EntryLater k' v' rest n k v :
    EntryAt rest n k v -> EntryAt (DCons k' v' rest) n k v
| EntryInside k' d' rest n k v :
    EntryAt d' n k v -> EntryAt (DCons k' (VDict d') rest) (S n) k v.

Definition is_dict (v : value) : bool :=
  match v with
  | VDict _ => true
  | _ => false
  end.

(** No entry of [x], at any depth, has a list for its value. *)
Fixpoint no_lists (x : dict) : bool :=
  match x with
  | DNil => true
  | DCons _ v rest =>
      match v with
      | VList _ => false
      | VDict d => no_lists d
      | _ => true
      end && no_lists rest
  end.

(** The number of string-valued entries of [x], at all depths. *)
Fixpoint count_str (x : dict) : nat :=
  match x with
  | DNil => 0
  | DCons _ v rest =>
      match v with
      | VStr _ => 1
      | VDict d => count_str d
      | _ => 0
      end + count_str rest
  end.

(** Every entry of [x] itself has a value that is neither a dict, a
    string nor a list. *)
Fixpoint all_other (x : dict) : bool :=
  match x with
  | DNil => true
  | DCons _ v rest => is_other v && all_other rest
  end.

Definition is_blank (line : string) : bool :=
  match line with
  | EmptyString => true
  | _ => false
  end.

(** A line that starts as a bullet line does. *)
Definition is_bullet_line (line : string) : bool := prefix "- `" line.

(** The first line is blank. *)
Definition hd_blank (lines : list string) : bool :=
  match lines with
  | [] => false
  | a :: _ => is_blank a
  end.

(** No two blank lines in a row. *)
Fixpoint no_double_blank (lines : list string) : bool :=
  match lines with
  | [] => true
  | a :: r => negb (is_blank a && hd_blank r) && no_double_blank r
  end.

Definition raw_free (es : list emission) : bool :=
  forallb (fun e => match e with ERawLines _ => false | _ => true end) es.

(** The string entries of [x], all depths, in the order of the walk. *)
Fixpoint options_of (x : dict) : list (string * string) :=
  match x with
  | DNil => []
  | DCons k v rest =>
      match v with
      | VStr s => [(k, s)]
      | VDict d => options_of d
      | _ => []
      end ++ options_of rest
  end.

Definition emission_options (es : list emission) : list (string * string) :=
  flat_map (fun e => match e with EOption k s => [(k, s)] | _ => [] end) es.

(** A [docs] object with a list entry and an entry of another type. *)
Definition mixed_docs : dict :=
  DCons "name" (VStr "n")
    (DCons "flags" (VDict (DCons "x_y" (VStr "first")
                            (DCons "n" (VInt 3) DNil)))
       (DCons "description" (VStr "d")
          (DCons "notes" (VList [VStr "one"; VStr "two"]) DNil))).

(** The entry of the document an emission of [thing(x, i)] stands for. *)
Definition emission_from (x : dict) (i : nat) (e : emission) : Prop :=
  match e with
  | EGroup j k => exists n d, EntryAt x n k (VDict d) /\ j = i + n
  | EOption k s => exists n, EntryAt x n k (VStr s)
  | ERawLines l => exists n k, EntryAt x n k (VList l)
  end.

(** The entries the main block keeps. *)
Definition kept (kv : string * value) : bool :=
  negb (String.eqb "name" (fst kv)) && negb (String.eqb "description" (fst kv)).

(** The example document with other metadata, in other places, and a key
    beside [docs]. *)
Definition general_timeout_moved : value :=
  VDict (DCons "version" (VInt 2) (DCons "docs" (VDict
    (DCons "description" (VStr "another description")
    (DCons "general"
       (VDict (DCons "timeout" (VStr "Request timeout in seconds.") DNil))
    (DCons "name" (VStr "another name")
     DNil)))) DNil)).

(** ** Lines of the text on standard output *)

(** The line feed [print] puts after its text. *)
Definition newline : ascii := "010"%char.

Fixpoint no_newline (s : string) : bool :=
  match s with
  | EmptyString => true
  | String c r => negb (Ascii.eqb c newline) && no_newline r
  end.

(** The lines of a text: the pieces that end with a line feed, and what
    comes after the last line feed when that is not empty. *)
Fixpoint text_lines (s : string) : list string :=
  match s with
  | EmptyString => []
  | String c r =>
      if Ascii.eqb c newline then EmptyString :: text_lines r
      else match text_lines r with
           | [] => [String c EmptyString]
           | l :: ls => String c l :: ls
           end
  end.

(** The characters of [s] are ASCII: the range on which [title] is
    Python's [str.title]. *)
Fixpoint ascii_only (s : string) : bool :=
  match s with
  | EmptyString => true
  | String c r => Nat.ltb (nat_of_ascii c) 128 && ascii_only r
  end.

(** No key of a dict or string entry of [x], and no string value, at any
    depth, holds a line feed. *)
Fixpoint no_newlines (x : dict) : bool :=
  match x with
  | DNil => true
  | DCons k v rest =>
      match v with
      | VStr s => no_newline k && no_newline s
      | VDict d => no_newline k && no_newlines d
      | _ => true
      end && no_newlines rest
  end.

(** An emission that is no RawLines and whose key and value hold no line
    feed. *)
Definition emission_clean (e : emission) : bool :=
  match e with
  | EGroup _ k => no_newline k
  | EOption k v => no_newline k && no_newline v
  | ERawLines _ => false
  end.

(** A string entry whose value is [a], a line feed, [b]. *)
Definition two_line_option : dict :=
  DCons "k" (VStr (String "a" (String newline (String "b" EmptyString)))) DNil.

(** A list entry whose one element is [a], a line feed, [b]. *)
Definition two_line_element : dict :=
  DCons "k"
    (VList [VStr (String "a" (String newline (String "b" EmptyString)))]) DNil.


(** ** Basic facts *)

Lemma print_all_eq str_other l st :
  print_all str_other l st =
  mkState (doc st) (last st) (out st ++ map (str str_other) l).
Proof.
  unfold print_all. revert st.
  induction l as [|v l IH]; intros st; simpl.
  - rewrite app_nil_r. now destruct st.
  - rewrite IH. simpl. now rewrite <- app_assoc.
Qed.

Lemma last_cons_default {A} (l : list A) (a d : A) :
  List.last (a :: l) d = List.last l a.
Proof.
  revert a d. induction l as [|b l IH]; intros a d; [reflexivity|].
  change (List.last (a :: b :: l) d) with (List.last (b :: l) d).
  now rewrite !IH.
Qed.

Lemma last_app_default {A} (l1 l2 : list A) (d : A) :
  List.last (l1 ++ l2) d = List.last l2 (List.last l1 d).
Proof.
  revert d. induction l1 as [|a l1 IH]; intros d; [reflexivity|].
  rewrite <- app_comm_cons, !last_cons_default. apply IH.
Qed.

Lemma final_kind_app prev a b :
  final_kind prev (a ++ b) = final_kind (final_kind prev a) b.
Proof.
  unfold final_kind. rewrite map_app. apply last_app_default.
Qed.

Lemma final_kind_cons prev e es :
  final_kind prev (e :: es) = final_kind (Some (kind_of e)) es.
Proof.
  unfold final_kind. simpl map. apply last_cons_default.
Qed.

Lemma render_app str_other prev a b :
  render str_other prev (a ++ b) =
  render str_other prev a ++ render str_other (final_kind prev a) b.
Proof.
  revert prev. induction a as [|e a IH]; intros prev; [reflexivity|].
  simpl. rewrite IH, final_kind_cons, <- !app_assoc. reflexivity.
Qed.

(** [blank_before] is the test [thing] makes before a heading. *)
Lemma blank_before_group prev i k :
  blank_before prev (EGroup i k) = if last_is_other prev then [""] else [].
Proof. destruct prev as [[]|]; reflexivity. Qed.

(** The state [thing] reaches, in closed form: [x] untouched, [last] the
    kind of the last emission, the output extended by the rendering of the
    flattened emissions. *)
Lemma thing_flat str_other x :
  forall i st,
    thing str_other x i st =
    mkState (doc st)
            (final_kind (last st) (emissions x i))
            (out st ++ render str_other (last st) (emissions x i)).
Proof.
  induction x using dict_value_ind with
    (P := fun v => match v with
                   | VDict d => forall i st,
                       thing str_other d i st =
                       mkState (doc st)
                               (final_kind (last st) (emissions d i))
                               (out st ++ render str_other (last st) (emissions d i))
                   | _ => True
                   end);
    try exact I; try assumption.
  - intros i st. simpl. rewrite app_nil_r. now destruct st.
  - intros i st. simpl thing. rewrite IHx0. clear IHx0.
    destruct v; simpl emissions; simpl app.
    1-4: reflexivity.
    + simpl. rewrite final_kind_cons, <- !app_assoc. reflexivity.
    + rewrite print_all_eq. simpl.
      rewrite final_kind_cons, <- !app_assoc. reflexivity.
    + rewrite IHx. simpl doc. simpl last. simpl out.
      rewrite final_kind_cons, final_kind_app, render_app.
      destruct (last st) as [[]|]; simpl;
        rewrite <- !app_assoc; reflexivity.
Qed.

Lemma thing_out str_other x i st :
  out (thing str_other x i st) =
  out st ++ render str_other (last st) (emissions x i).
Proof. now rewrite thing_flat. Qed.

Lemma thing_last str_other x i st :
  last (thing str_other x i st) = final_kind (last st) (emissions x i).
Proof. now rewrite thing_flat. Qed.

(** [thing] only prints and assigns [last]: the object bound to [x] is
    the same before and after. *)
Lemma thing_doc str_other x i st :
  doc (thing str_other x i st) = doc st.
Proof. now rewrite thing_flat. Qed.

(** Two groups in a row: the only blank line between their headings is
    the one [thing] prints after the first heading. *)
Lemma consecutive_groups str_other x i st es i1 k1 i2 k2 es' :
  emissions x i = es ++ EGroup i1 k1 :: EGroup i2 k2 :: es' ->
  out (thing str_other x i st) =
  out st ++ render str_other (last st) es
         ++ blank_before (final_kind (last st) es) (EGroup i1 k1)
         ++ [heading i1 k1; ""; heading i2 k2; ""]
         ++ render str_other (Some py_dict) es'.
Proof.
  intros E. rewrite thing_out, E, render_app. reflexivity.
Qed.

(** ** The claims *)

(** C1, as stated, fails: for the document [{"a": "x", "g": {}}] the
    flattened emissions are an Option and then a Group, and the code prints
    a blank line between the bullet line and the heading, where the claim
    has none. *)
Lemma blank_line_claim_fails :
  emissions option_then_group 3 = [EOption "a" "x"; EGroup 3 "g"] /\
  out (thing no_str option_then_group 3 init) =
    ["- `a`: x"; ""; "### G"; ""] /\
  out (thing no_str option_then_group 3 init) <>
    spec_render no_str None (emissions option_then_group 3).
Proof.
  repeat split; try reflexivity.
  vm_compute. discriminate.
Qed.

(** C1, amended: in the flattened emission order, the lines of an emission
    [e] are preceded by one blank line exactly when [e] is a Group and the
    emission right before it is an Option or RawLines.  Nothing is inserted
    before the first emission of a run started with [last = None], and
    nothing before a Group that follows a Group: the only blank line
    between their headings is the one printed after the first heading. *)
Theorem blank_line_law str_other x i st es e es' :
  emissions x i = es ++ e :: es' ->
  out (thing str_other x i st) =
    out st ++ render str_other (last st) es
           ++ match e, final_kind (last st) es with
              | EGroup _ _, Some py_str => [""]
              | EGroup _ _, Some py_list => [""]
              | _, _ => []
              end
           ++ body str_other e
           ++ render str_other (Some (kind_of e)) es' /\
  (es = [] -> last st = None ->
   out (thing str_other x i st) =
     out st ++ body str_other e ++ render str_other (Some (kind_of e)) es') /\
  (forall es0 i1 k1 i2 k2,
     es = es0 ++ [EGroup i1 k1] -> e = EGroup i2 k2 ->
     out (thing str_other x i st) =
       out st ++ render str_other (last st) es0
              ++ blank_before (final_kind (last st) es0) (EGroup i1 k1)
              ++ [heading i1 k1; ""; heading i2 k2; ""]
              ++ render str_other (Some py_dict) es').
Proof.
  intros E. split; [|split].
  - rewrite thing_out, E, render_app. reflexivity.
  - intros -> L. rewrite thing_out, E, L. simpl.
    destruct e; reflexivity.
  - intros es0 i1 k1 i2 k2 -> ->.
    rewrite <- app_assoc in E. simpl in E.
    exact (consecutive_groups str_other x i st es0 i1 k1 i2 k2 es' E).
Qed.

Lemma blank_line_law_witness :
  (emissions option_then_group 3 = [EOption "a" "x"] ++ EGroup 3 "g" :: [] /\
   out (thing no_str option_then_group 3 init) =
     ["- `a`: x"] ++ [""] ++ ["### G"; ""]) /\
  (emissions option_then_group 3 = [] ++ EOption "a" "x" :: [EGroup 3 "g"] /\
   last init = None /\
   out (thing no_str option_then_group 3 init) =
     ["- `a`: x"] ++ [""; "### G"; ""]) /\
  (emissions nested_groups 3 =
     [EOption "intro" "text"; EGroup 3 "a"] ++ EGroup 4 "b" :: [EGroup 5 "c_d"] /\
   out (thing no_str nested_groups 3 init) =
     ["- `intro`: text"] ++ [""] ++ ["### A"; ""; "#### B"; ""]
       ++ ["##### C D"; ""]).
Proof.
  split; [|split].
  - split; [reflexivity|].
    exact (proj1 (blank_line_law no_str option_then_group 3 init
                    [EOption "a" "x"] (EGroup 3 "g") [] eq_refl)).
  - split; [reflexivity|]. split; [reflexivity|].
    exact (proj1 (proj2 (blank_line_law no_str option_then_group 3 init
                           [] (EOption "a" "x") [EGroup 3 "g"] eq_refl))
                 eq_refl eq_refl).
  - split; [reflexivity|].
    exact (proj2 (proj2 (blank_line_law no_str nested_groups 3 init
                           [EOption "intro" "text"; EGroup 3 "a"]
                           (EGroup 4 "b") [EGroup 5 "c_d"] eq_refl))
                 [EOption "intro" "text"] 3 "a" 4 "b" eq_refl eq_refl).
Defined.

(** C9: an entry whose value is neither a dict, a string nor a list is
    passed over: nothing is printed, [last] stays, and the walk goes on
    with the entries after it. *)
Theorem other_skipped str_other k v rest i st :
  is_other v = true ->
  thing str_other (DCons k v rest) i st = thing str_other rest i st.
Proof.
  intros H. destruct v; try discriminate H; reflexivity.
Qed.

Lemma other_skipped_witness :
  is_other (VInt 7) = true /\
  thing no_str (DCons "n" (VInt 7) option_then_group) 3 init =
  thing no_str option_then_group 3 init.
Proof.
  split; [reflexivity|].
  apply (other_skipped no_str "n" (VInt 7) option_then_group 3 init).
  reflexivity.
Defined.



Lemma get_replace a b s n :
  String.get n (replace a b s) =
  option_map (fun c => if Ascii.eqb c a then b else c) (String.get n s).
Proof.
  revert n. induction s as [|c s IH]; intros n; [reflexivity|].
  destruct n as [|n]; simpl; [reflexivity|]. apply IH.
Qed.

Lemma get_title_from prev s n :
  String.get n (title_from prev s) =
  option_map (fun c =>
                if match n with O => prev | S _ => after_cased s n end
                then to_lower c else to_upper c)
             (String.get n s).
Proof.
  revert prev n. induction s as [|c s IH]; intros prev n; [reflexivity|].
  destruct n as [|n]; [reflexivity|].
  simpl String.get. rewrite IH.
  destruct n as [|n]; reflexivity.
Qed.

Lemma get_title s n :
  String.get n (title s) =
  option_map (fun c => if after_cased s n then to_lower c else to_upper c)
             (String.get n s).
Proof.
  unfold title. rewrite get_title_from. destruct n; reflexivity.
Qed.

Lemma dict_get_remove_other k k' x :
  String.eqb k' k = false ->
  dict_get k (dict_remove k' x) = dict_get k x.
Proof.
  intros N. induction x as [|k0 v rest IH]; [reflexivity|].
  simpl. destruct (String.eqb k' k0) eqn:E.
  - apply String.eqb_eq in E. subst k0.
    rewrite String.eqb_sym, N. exact IH.
  - simpl. rewrite IH. reflexivity.
Qed.

Lemma items_remove k x :
  items (dict_remove k x) =
  filter (fun kv => negb (String.eqb k (fst kv))) (items x).
Proof.
  induction x as [|k0 v rest IH]; [reflexivity|].
  simpl. destruct (String.eqb k k0); simpl; now rewrite IH.
Qed.

Lemma filter_twice {A} (p q : A -> bool) (l : list A) :
  filter q (filter p l) = filter (fun a => p a && q a) l.
Proof.
  induction l as [|a l IH]; [reflexivity|].
  cbn [filter]. destruct (p a); cbn [filter andb]; [|exact IH].
  destruct (q a); now rewrite IH.
Qed.

(** C6: when the loaded object has no [docs] key, or its [docs] object
    has no [name] or no [description] key, the run ends with a [KeyError]
    for one of these keys and has written nothing. *)
Theorem missing_key_fails str_other top :
  (dict_get "docs" top = None \/
   exists x, dict_get "docs" top = Some (VDict x) /\
             (dict_get "name" x = None \/ dict_get "description" x = None)) ->
  exists k, In k ["docs"; "name"; "description"] /\
            fst (main str_other (VDict top)) = Some (KeyError k) /\
            out (snd (main str_other (VDict top))) = [].
Proof.
  intros [H | (x & H & Hx)]; unfold main, getitem; rewrite H.
  - exists "docs". simpl. auto.
  - unfold delitem. destruct (dict_get "name" x) eqn:Hn.
    + destruct Hx as [Hx | Hx]; [discriminate|].
      rewrite dict_get_remove_other by reflexivity. rewrite Hx.
      exists "description". simpl. auto.
    + exists "name". simpl. auto.
Qed.

Lemma missing_key_fails_witness :
  (exists x, no_description = VDict x /\
             exists y, dict_get "docs" x = Some (VDict y) /\
                       dict_get "description" y = None) /\
  exists k, In k ["docs"; "name"; "description"] /\
            fst (main no_str no_description) = Some (KeyError k) /\
            out (snd (main no_str no_description)) = [].
Proof.
  split.
  - eexists. split; [reflexivity|]. eexists. split; reflexivity.
  - apply (missing_key_fails no_str).
    right. eexists. split; [reflexivity|]. right. reflexivity.
Defined.

(** C7: after a run that raised nothing, the object bound to [x] is the
    [docs] object that was loaded with the entries [name] and
    [description] taken out; every other entry is there, with its value as
    it was and in its place. *)
Theorem only_two_deletions str_other top st :
  main str_other top = (None, st) ->
  exists d0,
    getitem top "docs" = Ok (VDict d0) /\
    doc st = Some (VDict (dict_remove "description" (dict_remove "name" d0))) /\
    items (dict_remove "description" (dict_remove "name" d0)) =
    filter (fun kv => negb (String.eqb "name" (fst kv)) &&
                      negb (String.eqb "description" (fst kv)))
           (items d0).
Proof.
  unfold main. intros H.
  destruct (getitem top "docs") as [x0|e] eqn:G; [|discriminate].
  unfold delitem in H.
  destruct x0 as [| | | | | |d0]; try discriminate.
  destruct (dict_get "name" d0); [|discriminate].
  destruct (dict_get "description" (dict_remove "name" d0)); [|discriminate].
  injection H as <-.
  exists d0. split; [reflexivity|]. split.
  - rewrite thing_doc. reflexivity.
  - rewrite !items_remove. apply filter_twice.
Qed.

Lemma only_two_deletions_witness :
  main no_str general_timeout =
    (None, snd (main no_str general_timeout)) /\
  doc (snd (main no_str general_timeout)) =
    Some (VDict (DCons "general"
      (VDict (DCons "timeout" (VStr "Request timeout in seconds.") DNil))
      DNil)).
Proof.
  split; [reflexivity|].
  destruct (only_two_deletions no_str general_timeout
              (snd (main no_str general_timeout)) eq_refl)
    as (d0 & G & D & _).
  injection G as <-. exact D.
Defined.

Lemma written_thing str_other x i st :
  written st (thing str_other x i st) =
  render str_other (last st) (emissions x i).
Proof.
  unfold written. rewrite thing_out.
  rewrite skipn_app, skipn_all, Nat.sub_diag. reflexivity.
Qed.

(** C8: the text a call of [thing] writes depends on the document and on
    [last] at the start only: two runs on one document, each started with
    [last = None], write the same bytes. *)
Theorem output_deterministic str_other x i s1 s2 :
  last s1 = None ->
  last s2 = None ->
  stdout_text (written s1 (thing str_other x i s1)) =
  stdout_text (written s2 (thing str_other x i s2)).
Proof.
  intros L1 L2. rewrite !written_thing, L1, L2. reflexivity.
Qed.

Lemma output_deterministic_witness :
  last init = None /\
  last (mkState None None ["earlier"]) = None /\
  stdout_text (written init (thing no_str nested_groups 3 init)) =
  stdout_text (written (mkState None None ["earlier"])
                 (thing no_str nested_groups 3
                    (mkState None None ["earlier"]))).
Proof.
  split; [reflexivity|]. split; [reflexivity|].
  apply (output_deterministic no_str nested_groups 3 init
           (mkState None None ["earlier"])); reflexivity.
Defined.

(** ** Further properties of [thing] and of the main block *)

(** X1: rendering the entries of [x] followed by those of [y] is
    rendering [x] and then rendering [y] from the state reached: [last]
    and the output carry over, nothing else does. *)
Theorem thing_app str_other x y i st :
  thing str_other (dict_app x y) i st =
  thing str_other y i (thing str_other x i st).
Proof.
  revert st. induction x as [|k v rest IH]; intros st; [reflexivity|].
  simpl. apply IH.
Qed.

Lemma main_success_inv str_other top st :
  main str_other top = (None, st) ->
  exists d d0,
    top = VDict d /\
    dict_get "docs" d = Some (VDict d0) /\
    dict_get "name" d0 <> None /\
    dict_get "description" d0 <> None /\
    st = thing str_other (dict_remove "description" (dict_remove "name" d0)) 3
           (mkState (Some (VDict (dict_remove "description"
                                    (dict_remove "name" d0))))
                    None []).
Proof.
  unfold main, getitem. intros H.
  destruct top as [| | | | | |d]; try discriminate.
  destruct (dict_get "docs" d) as [x0|] eqn:G; [|discriminate].
  unfold delitem in H.
  destruct x0 as [| | | | | |d0]; try discriminate.
  destruct (dict_get "name" d0) eqn:Hn; [|discriminate].
  destruct (dict_get "description" (dict_remove "name" d0)) eqn:Hd;
    [|discriminate].
  rewrite dict_get_remove_other in Hd by reflexivity.
  injection H as <-.
  exists d, d0. repeat split; congruence.
Qed.

(** X4: when [docs] has a [name] and no [description], [name] is deleted
    before the second deletion raises: the run ends with
    [KeyError("description")], nothing written, and the object bound to
    [x] has lost [name] and nothing else. *)
Theorem name_deleted_before_failure str_other d d0 :
  dict_get "docs" d = Some (VDict d0) ->
  dict_get "name" d0 <> None ->
  dict_get "description" d0 = None ->
  main str_other (VDict d) =
    (Some (KeyError "description"),
     mkState (Some (VDict (dict_remove "name" d0))) None []) /\
  items (dict_remove "name" d0) =
    filter (fun kv => negb (String.eqb "name" (fst kv))) (items d0).
Proof.
  intros G Hn Hd. split; [|apply items_remove].
  unfold main, getitem, delitem. rewrite G.
  destruct (dict_get "name" d0); [|congruence].
  rewrite dict_get_remove_other by reflexivity.
  rewrite Hd. reflexivity.
Qed.

Lemma name_deleted_before_failure_witness :
  main no_str no_description =
    (Some (KeyError "description"),
     mkState (Some (VDict (DCons "general"
                             (VDict (DCons "t" (VStr "s") DNil)) DNil)))
             None []).
Proof.
  refine (proj1 (name_deleted_before_failure no_str
                   (DCons "docs"
                      (VDict (DCons "name" (VStr "n")
                         (DCons "general"
                            (VDict (DCons "t" (VStr "s") DNil)) DNil)))
                      DNil)
                   (DCons "name" (VStr "n")
                      (DCons "general"
                         (VDict (DCons "t" (VStr "s") DNil)) DNil))
                   eq_refl _ eq_refl)).
  discriminate.
Defined.

(** X5: the run raises [TypeError] exactly when the loaded value is no
    object or its [docs] is no object, and it never raises
    [AttributeError]: [thing] is only called on a dict. *)
Theorem type_error_iff str_other top :
  (fst (main str_other top) = Some TypeError <->
   is_dict top = false \/
   exists d v, top = VDict d /\ dict_get "docs" d = Some v /\
               is_dict v = false) /\
  fst (main str_other top) <> Some AttributeError.
Proof.
  unfold main, getitem, delitem.
  destruct top as [| | | | | |d];
    try (split; [split; [intros _; left; reflexivity | reflexivity]
                | discriminate]).
  destruct (dict_get "docs" d) as [x0|] eqn:G.
  - destruct x0 as [| | | | | |d0];
      try (split; [split; [intros _; right; eexists; eexists;
                           repeat split; [exact G | reflexivity]
                          | reflexivity]
                  | discriminate]).
    assert (N : ~ (is_dict (VDict d) = false \/
                   exists d' v, VDict d = VDict d' /\
                                dict_get "docs" d' = Some v /\
                                is_dict v = false)).
    { intros [H | (d' & v & E & G' & H)]; [discriminate|].
      injection E as <-. rewrite G in G'. injection G' as <-.
      discriminate. }
    destruct (dict_get "name" d0);
      [destruct (dict_get "description" (dict_remove "name" d0))|];
      simpl; (split; [split; [discriminate | intros H; now destruct N]
                     | discriminate]).
  - split; [split; [discriminate|] | discriminate].
    intros [H | (d' & v & E & G' & H)]; [discriminate|].
    injection E as <-. rewrite G in G'. discriminate.
Qed.

Lemma type_error_iff_witness :
  fst (main no_str (VDict (DCons "docs" (VStr "text") DNil))) = Some TypeError.
Proof.
  apply (proj2 (proj1 (type_error_iff no_str
                         (VDict (DCons "docs" (VStr "text") DNil))))).
  right. eexists. eexists. repeat split.
Defined.

Lemma items_inj x y : items x = items y -> x = y.
Proof.
  revert y. induction x as [|k v rest IH]; intros [|k' v' rest'] E;
    try discriminate; [reflexivity|].
  simpl in E. injection E as -> -> E. now rewrite (IH _ E).
Qed.

Lemma items_kept d0 :
  items (dict_remove "description" (dict_remove "name" d0)) =
  filter kept (items d0).
Proof. rewrite !items_remove. apply filter_twice. Qed.

(** X6: the metadata and whatever lies beside [docs] have no part in the
    output: two loaded values whose [docs] objects have the same entries
    apart from [name] and [description] give, when both runs succeed, the
    same lines and the same final [last]. *)
Theorem metadata_independent str_other top1 top2 st1 st2 d1 d2 :
  main str_other top1 = (None, st1) ->
  main str_other top2 = (None, st2) ->
  getitem top1 "docs" = Ok (VDict d1) ->
  getitem top2 "docs" = Ok (VDict d2) ->
  filter kept (items d1) = filter kept (items d2) ->
  out st1 = out st2 /\ last st1 = last st2.
Proof.
  intros M1 M2 G1 G2 E.
  destruct (main_success_inv _ _ _ M1) as (a1 & b1 & -> & H1 & _ & _ & ->).
  destruct (main_success_inv _ _ _ M2) as (a2 & b2 & -> & H2 & _ & _ & ->).
  unfold getitem in G1, G2. rewrite H1 in G1. rewrite H2 in G2.
  injection G1 as ->. injection G2 as ->.
  rewrite <- !items_kept in E. apply items_inj in E. rewrite E.
  split; reflexivity.
Qed.

Lemma metadata_independent_witness :
  out (snd (main no_str general_timeout)) =
    out (snd (main no_str general_timeout_moved)) /\
  last (snd (main no_str general_timeout)) =
    last (snd (main no_str general_timeout_moved)).
Proof.
  apply (metadata_independent no_str general_timeout general_timeout_moved
           (snd (main no_str general_timeout))
           (snd (main no_str general_timeout_moved))
           (DCons "name" (VStr "n")
             (DCons "description" (VStr "d")
             (DCons "general"
                (VDict (DCons "timeout" (VStr "Request timeout in seconds.")
                          DNil))
              DNil)))
           (DCons "description" (VStr "another description")
             (DCons "general"
                (VDict (DCons "timeout" (VStr "Request timeout in seconds.")
                          DNil))
             (DCons "name" (VStr "another name") DNil))));
    reflexivity.
Defined.

Lemma emission_from_later k v rest i e :
  emission_from rest i e -> emission_from (DCons k v rest) i e.
Proof.
  destruct e as [j k0|k0 s|l]; simpl.
  - intros (n & d & H & E). exists n, d. split; [now apply EntryLater|exact E].
  - intros (n & H). exists n. now apply EntryLater.
  - intros (n & k0 & H). exists n, k0. now apply EntryLater.
Qed.

Lemma emission_from_inside k d rest i e :
  emission_from d (S i) e -> emission_from (DCons k (VDict d) rest) i e.
Proof.
  destruct e as [j k0|k0 s|l]; simpl.
  - intros (n & d' & H & E). exists (S n), d'.
    split; [now apply EntryInside|]. rewrite E. lia.
  - intros (n & H). exists (S n). now apply EntryInside.
  - intros (n & k0 & H). exists (S n), k0. now apply EntryInside.
Qed.

Lemma emissions_sound x :
  forall i e, In e (emissions x i) -> emission_from x i e.
Proof.
  induction x using dict_value_ind with
    (P := fun v => match v with
                   | VDict d => forall i e, In e (emissions d i) ->
                                            emission_from d i e
                   | _ => True
                   end);
    try exact I; try assumption.
  - intros i e [].
  - intros i e H. simpl in H. apply in_app_or in H.
    destruct H as [H|H]; [|apply emission_from_later; now apply IHx0].
    destruct v; simpl in H; try contradiction.
    + destruct H as [<-|[]]. simpl. exists 0. apply EntryHere.
    + destruct H as [<-|[]]. simpl. exists 0, k. apply EntryHere.
    + destruct H as [<-|H].
      * simpl. exists 0, d. split; [apply EntryHere|lia].
      * apply emission_from_inside. now apply IHx.
Qed.

Lemma render_lines str_other prev es line :
  In line (render str_other prev es) ->
  line = "" \/ exists e, In e es /\ In line (body str_other e).
Proof.
  revert prev. induction es as [|e es IH]; intros prev H; [destruct H|].
  simpl in H. apply in_app_or in H. destruct H as [H|H].
  - left. destruct e, prev as [[]|]; simpl in H;
      try contradiction; destruct H as [<-|[]]; reflexivity.
  - apply in_app_or in H. destruct H as [H|H].
    + right. exists e. split; [now left|exact H].
    + destruct (IH _ H) as [->|(e' & I & B)]; [now left|].
      right. exists e'. split; [now right|exact B].
Qed.

(** X7: [thing] leaves the earlier output as it is and prints nothing of
    its own making: every line it adds is a blank line, the heading of a
    dict entry of the document at its depth, the bullet of a string entry,
    or an element of a list entry. *)
Theorem output_from_document str_other x i st :
  out (thing str_other x i st) =
    out st ++ written st (thing str_other x i st) /\
  forall line,
    In line (written st (thing str_other x i st)) ->
    line = "" \/
    (exists n k d, EntryAt x n k (VDict d) /\ line = heading (i + n) k) \/
    (exists n k s, EntryAt x n k (VStr s) /\ line = bullet k s) \/
    (exists n k l v, EntryAt x n k (VList l) /\ In v l /\
                     line = str str_other v).
Proof.
  rewrite written_thing. split; [apply thing_out|].
  intros line H. apply render_lines in H.
  destruct H as [->|(e & I & B)]; [now left|].
  apply emissions_sound in I. destruct e as [j k|k s|l]; simpl in *.
  - destruct I as (n & d & A & ->).
    destruct B as [<-|[<-|[]]]; [|now left].
    right. left. exists n, k, d. split; [exact A|reflexivity].
  - destruct I as (n & A). destruct B as [<-|[]].
    right. right. left. exists n, k, s. split; [exact A|reflexivity].
  - destruct I as (n & k & A). apply in_map_iff in B.
    destruct B as (v & <- & V).
    right. right. right. exists n, k, l, v. repeat split; assumption.
Qed.

Lemma output_from_document_witness :
  In "- `x_y`: first" (written init (thing no_str mixed_docs 3 init)) /\
  ("- `x_y`: first" = "" \/
   (exists n k d, EntryAt mixed_docs n k (VDict d) /\
                  "- `x_y`: first" = heading (3 + n) k) \/
   (exists n k s, EntryAt mixed_docs n k (VStr s) /\
                  "- `x_y`: first" = bullet k s) \/
   (exists n k l v, EntryAt mixed_docs n k (VList l) /\ In v l /\
                    "- `x_y`: first" = str no_str v)).
Proof.
  assert (H : In "- `x_y`: first"
                 (written init (thing no_str mixed_docs 3 init))).
  { vm_compute. right. right. right. right. left. reflexivity. }
  split; [exact H|].
  exact (proj2 (output_from_document no_str mixed_docs 3 init) _ H).
Defined.

Lemma emissions_complete x n k v :
  EntryAt x n k v ->
  forall i,
    match v with
    | VDict _ => In (EGroup (i + n) k) (emissions x i)
    | VStr s => In (EOption k s) (emissions x i)
    | VList l => In (ERawLines l) (emissions x i)
    | _ => True
    end.
Proof.
  induction 1 as [k v rest | k' v' rest n k v _ IH | k' d' rest n k v _ IH];
    intros i.
  - destruct v; simpl; auto. left. now rewrite Nat.add_0_r.
  - specialize (IH i). destruct v; try exact I;
      simpl; apply in_or_app; right; exact IH.
  - specialize (IH (S i)). rewrite Nat.add_succ_r.
    destruct v; try exact I;
      simpl; right; apply in_or_app; left; exact IH.
Qed.

Lemma body_in_render str_other es e line :
  In e es -> In line (body str_other e) ->
  forall prev, In line (render str_other prev es).
Proof.
  intros I B. induction es as [|e' es IH]; [destruct I|].
  intros prev. simpl. apply in_or_app. right. apply in_or_app.
  destruct I as [->|I]; [left; exact B|right; now apply IH].
Qed.

(** X8: nothing the renderer handles is left out: the heading of every
    dict entry (at its depth), the bullet of every string entry and every
    element of every list entry is among the lines [thing] writes, at
    whatever depth the entry lies. *)
Theorem every_entry_printed str_other x n k v i st :
  EntryAt x n k v ->
  match v with
  | VDict _ => In (heading (i + n) k) (written st (thing str_other x i st))
  | VStr s => In (bullet k s) (written st (thing str_other x i st))
  | VList l => forall e, In e l ->
                 In (str str_other e) (written st (thing str_other x i st))
  | _ => True
  end.
Proof.
  intros A. rewrite written_thing.
  pose proof (emissions_complete x n k v A i) as I.
  destruct v; try exact I.
  - eapply body_in_render; [exact I|]. now left.
  - intros e E. eapply body_in_render; [exact I|].
    simpl. now apply in_map.
  - eapply body_in_render; [exact I|]. now left.
Qed.

Lemma every_entry_printed_witness :
  EntryAt mixed_docs 1 "x_y" (VStr "first") /\
  In "- `x_y`: first" (written init (thing no_str mixed_docs 3 init)).
Proof.
  assert (A : EntryAt mixed_docs 1 "x_y" (VStr "first")).
  { unfold mixed_docs. apply EntryLater. apply EntryInside. apply EntryHere. }
  split; [exact A|].
  exact (every_entry_printed no_str mixed_docs 1 "x_y" (VStr "first") 3 init A).
Defined.

Lemma no_lists_raw_free x :
  forall i, no_lists x = true -> raw_free (emissions x i) = true.
Proof.
  induction x using dict_value_ind with
    (P := fun v => match v with
                   | VDict d => forall i, no_lists d = true ->
                                          raw_free (emissions d i) = true
                   | _ => True
                   end);
    try exact I; try assumption.
  - reflexivity.
  - intros i H. simpl in H. apply andb_prop in H. destruct H as [Hv Hr].
    simpl. unfold raw_free in *. rewrite forallb_app, (IHx0 i Hr), andb_true_r.
    destruct v; try reflexivity; [discriminate|].
    simpl. now apply IHx.
Qed.

Lemma emission_options_emissions x :
  forall i, emission_options (emissions x i) = options_of x.
Proof.
  induction x using dict_value_ind with
    (P := fun v => match v with
                   | VDict d => forall i, emission_options (emissions d i) =
                                          options_of d
                   | _ => True
                   end);
    try exact I; try assumption.
  - reflexivity.
  - intros i. simpl. unfold emission_options in *.
    rewrite flat_map_app, IHx0.
    destruct v; try reflexivity.
    simpl. now rewrite IHx.
Qed.

Lemma length_options_of x : length (options_of x) = count_str x.
Proof.
  induction x using dict_value_ind with
    (P := fun v => match v with
                   | VDict d => length (options_of d) = count_str d
                   | _ => True
                   end);
    try exact I; try assumption.
  - reflexivity.
  - simpl. rewrite length_app, IHx0. destruct v; try reflexivity.
    now rewrite IHx.
Qed.

Lemma heading_not_blank i k : is_blank (heading i k) = false.
Proof. destruct i; reflexivity. Qed.

Lemma heading_not_bullet i k : is_bullet_line (heading i k) = false.
Proof. destruct i; reflexivity. Qed.

Lemma bullet_is_bullet k v : is_bullet_line (bullet k v) = true.
Proof.
  unfold is_bullet_line, bullet. simpl.
  repeat match goal with
         | |- context [ascii_dec ?a ?b] =>
             destruct (ascii_dec a b); [|congruence]
         end.
  match goal with
  | |- prefix _ ?s = true => destruct s; reflexivity
  end.
Qed.

Lemma render_no_double_blank str_other es :
  raw_free es = true ->
  forall prev,
    no_double_blank (render str_other prev es) = true /\
    (last_is_other prev = false ->
     hd_blank (render str_other prev es) = false).
Proof.
  induction es as [|e es IH]; intros R prev; [split; reflexivity|].
  simpl in R. apply andb_prop in R. destruct R as [Re R].
  destruct e as [i k|k v|l]; [| |discriminate].
  - destruct (IH R (Some py_dict)) as [N H]. specialize (H eq_refl).
    assert (B : no_double_blank
                  (heading i k :: "" :: render str_other (Some py_dict) es)
                = true).
    { cbn [no_double_blank hd_blank]. rewrite heading_not_blank, H, N.
      reflexivity. }
    split.
    + destruct prev as [[]|]; cbn [render blank_before body kind_of app];
        try exact B.
      all: cbn [no_double_blank hd_blank]; rewrite heading_not_blank;
        cbn [no_double_blank hd_blank] in B; rewrite heading_not_blank in B;
        rewrite B; reflexivity.
    + destruct prev as [[]|]; try discriminate; intros _;
        cbn [render blank_before body kind_of app hd_blank];
        apply heading_not_blank.
  - destruct (IH R (Some py_str)) as [N _].
    split; [|intros _; reflexivity].
    destruct prev as [[]|]; cbn [render blank_before body kind_of app];
      cbn [no_double_blank]; rewrite N; reflexivity.
Qed.

Lemma render_bullets str_other es :
  raw_free es = true ->
  forall prev,
    filter is_bullet_line (render str_other prev es) =
    map (fun ks => bullet (fst ks) (snd ks)) (emission_options es).
Proof.
  induction es as [|e es IH]; intros R prev; [reflexivity|].
  simpl in R. apply andb_prop in R. destruct R as [Re R].
  destruct e as [i k|k v|l]; [| |discriminate].
  - change (emission_options (EGroup i k :: es)) with (emission_options es).
    rewrite <- (IH R (Some py_dict)).
    destruct prev as [[]|]; cbn [render blank_before body kind_of app filter];
      rewrite ?heading_not_bullet; reflexivity.
  - change (emission_options (EOption k v :: es))
      with ((k, v) :: emission_options es).
    cbn [map fst snd]. rewrite <- (IH R (Some py_str)).
    destruct prev as [[]|]; cbn [render blank_before body kind_of app filter];
      rewrite bullet_is_bullet; reflexivity.
Qed.

Lemma get_hashes_append i s n :
  String.get n (hashes i ++ s) =
  if Nat.ltb n i then Some "#"%char else String.get (n - i) s.
Proof.
  revert n. induction i as [|i IH]; intros n; simpl.
  - now rewrite Nat.sub_0_r.
  - destruct n as [|n]; [reflexivity|]. apply IH.
Qed.

Lemma length_append (a b : string) :
  String.length (a ++ b) = String.length a + String.length b.
Proof. induction a as [|c a IH]; simpl; [reflexivity|now rewrite IH]. Qed.

Lemma length_hashes i : String.length (hashes i) = i.
Proof. induction i as [|i IH]; simpl; [reflexivity|now rewrite IH]. Qed.

Lemma length_replace a b s : String.length (replace a b s) = String.length s.
Proof. induction s as [|c s IH]; simpl; [reflexivity|now rewrite IH]. Qed.

Lemma length_title_from prev s :
  String.length (title_from prev s) = String.length s.
Proof.
  revert prev. induction s as [|c s IH]; intros prev; simpl;
    [reflexivity|now rewrite IH].
Qed.

Lemma to_upper_underscore c : to_upper c = "_"%char -> c = "_"%char.
Proof.
  destruct c as [[] [] [] [] [] [] [] []]; vm_compute; intros H;
    try reflexivity; discriminate H.
Qed.

Lemma to_lower_underscore c : to_lower c = "_"%char -> c = "_"%char.
Proof.
  destruct c as [[] [] [] [] [] [] [] []]; vm_compute; intros H;
    try reflexivity; discriminate H.
Qed.

Lemma heading_text_no_underscore k n :
  String.get n (title (replace "_" " " k)) <> Some "_"%char.
Proof.
  rewrite get_title, get_replace.
  destruct (String.get n k) as [c|]; simpl; [|discriminate].
  intros H. injection H as H.
  assert (U : (if Ascii.eqb c "_" then " "%char else c) = "_"%char).
  { destruct (after_cased (replace "_" " " k) n);
      [now apply to_lower_underscore | now apply to_upper_underscore]. }
  destruct (Ascii.eqb c "_") eqn:E; [discriminate U|].
  apply Ascii.eqb_neq in E. contradiction.
Qed.

Lemma emissions_nil_iff x i : emissions x i = [] <-> all_other x = true.
Proof.
  induction x as [|k v rest IH]; [split; reflexivity|].
  destruct v; simpl; try exact IH; (split; intros H; discriminate H).
Qed.

Lemma final_kind_none prev es :
  final_kind prev es = None <-> prev = None /\ es = [].
Proof.
  revert prev. induction es as [|e es IH]; intros prev.
  - unfold final_kind. simpl. split; [auto|now intros [-> _]].
  - rewrite final_kind_cons, IH.
    split; [intros [H _] | intros [_ H]]; discriminate H.
Qed.

(** X12: a dict whose own entries are all of another type than dict,
    string and list is rendered as nothing at all, the state is left as it
    was; and [last] is still unset after [thing] only when it was unset
    before and the dict was of that kind. *)
Theorem only_other_entries str_other x i st :
  (all_other x = true -> thing str_other x i st = st) /\
  (last (thing str_other x i st) = None <->
   last st = None /\ all_other x = true).
Proof.
  split.
  - intros H. apply (emissions_nil_iff x i) in H.
    rewrite thing_flat, H. unfold final_kind. simpl.
    rewrite app_nil_r. now destruct st.
  - rewrite thing_last, final_kind_none, emissions_nil_iff. reflexivity.
Qed.

Lemma only_other_entries_witness :
  all_other (DCons "a" VNull (DCons "b" (VBool true) DNil)) = true /\
  thing no_str (DCons "a" VNull (DCons "b" (VBool true) DNil)) 3 init = init.
Proof.
  split; [reflexivity|].
  exact (proj1 (only_other_entries no_str
                  (DCons "a" VNull (DCons "b" (VBool true) DNil)) 3 init)
               eq_refl).
Defined.

(** ** Headings, bullets and raw lines on standard output *)

Lemma no_newline_append a b :
  no_newline (a ++ b) = no_newline a && no_newline b.
Proof.
  induction a as [|c a IH]; simpl; [reflexivity|].
  now rewrite IH, andb_assoc.
Qed.

Lemma text_lines_line l t :
  no_newline l = true ->
  text_lines (l ++ String newline t) = l :: text_lines t.
Proof.
  induction l as [|c l IH]; intros H; [reflexivity|].
  simpl in H. apply andb_prop in H. destruct H as [Hc Hl].
  simpl. apply negb_true_iff in Hc. rewrite Hc, (IH Hl). reflexivity.
Qed.

(** Where no printed text holds a line feed, the lines of the output are
    the printed texts. *)
Lemma text_lines_stdout ls :
  forallb no_newline ls = true -> text_lines (stdout_text ls) = ls.
Proof.
  induction ls as [|l ls IH]; intros H; [reflexivity|].
  simpl in H. apply andb_prop in H. destruct H as [Hl Hs].
  simpl. change (String "010" (stdout_text ls))
    with (String newline (stdout_text ls)).
  rewrite (text_lines_line _ _ Hl), (IH Hs). reflexivity.
Qed.

Lemma stdout_text_fold ls :
  stdout_text ls = fold_right (fun s t => (s ++ String newline t)%string) "" ls.
Proof. induction ls as [|l ls IH]; simpl; [reflexivity|now rewrite IH]. Qed.

Lemma string_app_assoc (a b c : string) :
  ((a ++ b) ++ c = a ++ (b ++ c))%string.
Proof. induction a as [|x a IH]; simpl; [reflexivity|now rewrite IH]. Qed.

Lemma no_newline_bullet k v :
  no_newline (bullet k v) = no_newline k && no_newline v.
Proof.
  unfold bullet.
  change ("- `" ++ k ++ "`: " ++ v)%string
    with (String "-" (String " " (String "`" (k ++ "`: " ++ v))))%string.
  cbn [no_newline]. rewrite !no_newline_append. reflexivity.
Qed.






(** C4, as stated, fails: for the string entry with key [k] and value
    [a], line feed, [b], the text written has two lines, [- `k`: a] and
    [b], where the claim has exactly one. *)
Lemma option_line_claim_fails :
  text_lines (stdout_text (written init (thing no_str two_line_option 3 init)))
    = ["- `k`: a"; "b"] /\
  length (text_lines
            (stdout_text (written init (thing no_str two_line_option 3 init))))
    <> 1.
Proof. split; [reflexivity|]. vm_compute. discriminate. Qed.

(** C4, amended: a string entry [k: v] is written by one call of [print]
    whose text is [- `k`: v], the value as it is, so that the bytes written
    are this text and a line feed, and [last] becomes [str]; the walk goes
    on with the entries after it.  The text is exactly one output line
    when neither the key nor the value holds a line feed. *)
Theorem option_line str_other k v i st :
  thing str_other (DCons k (VStr v) DNil) i st =
    mkState (doc st) (Some py_str)
            (out st ++ [("- `" ++ k ++ "`: " ++ v)%string]) /\
  (forall rest,
     thing str_other (DCons k (VStr v) rest) i st =
     thing str_other rest i
           (mkState (doc st) (Some py_str)
                    (out st ++ [("- `" ++ k ++ "`: " ++ v)%string]))) /\
  stdout_text (written st (thing str_other (DCons k (VStr v) DNil) i st)) =
    ("- `" ++ k ++ "`: " ++ v ++ String newline "")%string /\
  (no_newline k = true -> no_newline v = true ->
   text_lines
     (stdout_text (written st (thing str_other (DCons k (VStr v) DNil) i st)))
   = [("- `" ++ k ++ "`: " ++ v)%string]).
Proof.
  assert (W : written st (thing str_other (DCons k (VStr v) DNil) i st)
              = [bullet k v]).
  { rewrite written_thing. destruct (last st) as [[]|]; reflexivity. }
  split; [reflexivity|]. split; [reflexivity|]. rewrite W. split.
  - unfold bullet. cbn [stdout_text]. rewrite !string_app_assoc.
    reflexivity.
  - intros Hk Hv. apply (text_lines_stdout [bullet k v]). cbn [forallb].
    now rewrite no_newline_bullet, Hk, Hv.
Qed.

Lemma option_line_witness :
  no_newline "timeout" = true /\
  no_newline "Request timeout in seconds." = true /\
  text_lines
    (stdout_text
       (written init
          (thing no_str
             (DCons "timeout" (VStr "Request timeout in seconds.") DNil)
             4 init)))
  = ["- `timeout`: Request timeout in seconds."].
Proof.
  split; [reflexivity|]. split; [reflexivity|].
  exact (proj2 (proj2 (proj2
           (option_line no_str "timeout" "Request timeout in seconds." 4 init)))
           eq_refl eq_refl).
Defined.

(** C5, as stated, fails: for the list entry whose one element is [a],
    line feed, [b], the text written has two lines, [a] and [b], where the
    claim has the element as one output line of its own. *)
Lemma raw_lines_claim_fails :
  text_lines (stdout_text (written init (thing no_str two_line_element 3 init)))
    = ["a"; "b"] /\
  length (text_lines
            (stdout_text (written init (thing no_str two_line_element 3 init))))
    <> 1.
Proof. split; [reflexivity|]. vm_compute. discriminate. Qed.

(** C5, amended: a list-of-strings entry writes its elements as they are,
    one call of [print] for each and in order, with nothing added: the
    bytes written are each element followed by a line feed, and [last]
    becomes [list]; the walk goes on with the entries after it.  Where no
    element holds a line feed, the output lines are the elements, each a
    line of its own. *)
Theorem raw_lines str_other k ss i st :
  thing str_other (DCons k (VList (map VStr ss)) DNil) i st =
    mkState (doc st) (Some py_list) (out st ++ ss) /\
  (forall rest,
     thing str_other (DCons k (VList (map VStr ss)) rest) i st =
     thing str_other rest i
           (mkState (doc st) (Some py_list) (out st ++ ss))) /\
  stdout_text
    (written st (thing str_other (DCons k (VList (map VStr ss)) DNil) i st)) =
    fold_right (fun s t => (s ++ String newline t)%string) EmptyString ss /\
  (forallb no_newline ss = true ->
   text_lines
     (stdout_text
        (written st
           (thing str_other (DCons k (VList (map VStr ss)) DNil) i st)))
   = ss).
Proof.
  assert (S : forall rest,
             thing str_other (DCons k (VList (map VStr ss)) rest) i st =
             thing str_other rest i
                   (mkState (doc st) (Some py_list) (out st ++ ss))).
  { intros rest. simpl. rewrite print_all_eq. unfold set_last. simpl.
    rewrite map_map. simpl. rewrite map_id. reflexivity. }
  assert (W : written st
                (thing str_other (DCons k (VList (map VStr ss)) DNil) i st)
              = ss).
  { rewrite S. unfold written. simpl.
    rewrite skipn_app, skipn_all, Nat.sub_diag. reflexivity. }
  split; [apply S|]. split; [exact S|]. rewrite W. split.
  - apply stdout_text_fold.
  - apply text_lines_stdout.
Qed.

Lemma raw_lines_witness :
  forallb no_newline ["# Title"; ""; "text"] = true /\
  text_lines
    (stdout_text
       (written init
          (thing no_str
             (DCons "intro" (VList (map VStr ["# Title"; ""; "text"])) DNil)
             3 init)))
  = ["# Title"; ""; "text"].
Proof.
  split; [reflexivity|].
  exact (proj2 (proj2 (proj2
           (raw_lines no_str "intro" ["# Title"; ""; "text"] 3 init)))
           eq_refl).
Defined.

(** ** Exceptions of the main block, and lines of a document without
       lists *)

(** X2: the run ends with [KeyError(k)] exactly when the loaded value is
    an object and either it has no [docs] key and [k] is [docs], or its
    [docs] is an object without a [name] key and [k] is [name], or its
    [docs] is an object with a [name] key and without a [description] key
    and [k] is [description]. *)
Theorem key_error_iff str_other top k :
  fst (main str_other top) = Some (KeyError k) <->
  exists d,
    top = VDict d /\
    ((k = "docs" /\ dict_get "docs" d = None) \/
     exists d0,
       dict_get "docs" d = Some (VDict d0) /\
       ((k = "name" /\ dict_get "name" d0 = None) \/
        (k = "description" /\ dict_get "name" d0 <> None /\
         dict_get "description" d0 = None))).
Proof.
  unfold main, getitem, delitem.
  destruct top as [| | | | | |d];
    try (split; [discriminate | intros (d' & E & _); discriminate E]).
  destruct (dict_get "docs" d) as [x0|] eqn:G.
  - assert (N : forall P : dict -> Prop,
              (exists d', VDict d = VDict d' /\
                 ((k = "docs" /\ dict_get "docs" d' = None) \/
                  exists d0, dict_get "docs" d' = Some (VDict d0) /\ P d0)) ->
              exists d0, x0 = VDict d0 /\ P d0).
    { intros P (d' & E & [[_ H] | (d0 & H & HP)]); injection E as <-;
        rewrite G in H; [discriminate|].
      injection H as ->. exists d0. auto. }
    destruct x0 as [| | | | | |d0];
      try (split; [discriminate
                  | intros H; apply N in H; destruct H as (? & E & _);
                    discriminate E]).
    destruct (dict_get "name" d0) eqn:Hn.
    + rewrite dict_get_remove_other by reflexivity.
      destruct (dict_get "description" d0) eqn:Hd; cbn [fst].
      * split; [discriminate|].
        intros H. apply N in H. destruct H as (d1 & E & [[_ H]|[_ [_ H]]]);
          injection E as <-; congruence.
      * split.
        -- intros H. injection H as <-. exists d. split; [reflexivity|].
           right. exists d0. split; [exact G|]. right.
           repeat split; congruence.
        -- intros H. apply N in H.
           destruct H as (d1 & E & [[-> H]|[-> _]]); injection E as <-;
             [congruence|reflexivity].
    + cbn [fst]. split.
      * intros H. injection H as <-. exists d. split; [reflexivity|].
        right. exists d0. split; [exact G|]. left. auto.
      * intros H. apply N in H.
        destruct H as (d1 & E & [[-> _]|[_ [H _]]]); injection E as <-;
          [reflexivity|congruence].
  - cbn [fst]. split.
    + intros H. injection H as <-. exists d. split; [reflexivity|]. left. auto.
    + intros (d' & E & [[-> _] | (d0 & H & _)]); injection E as <-;
        [reflexivity|congruence].
Qed.

Lemma key_error_iff_witness :
  fst (main no_str no_description) = Some (KeyError "description").
Proof.
  apply (proj2 (key_error_iff no_str no_description "description")).
  eexists. split; [reflexivity|]. right. eexists. split; [reflexivity|].
  right. split; [reflexivity|]. split; [discriminate|reflexivity].
Defined.

(** X3: a run that ends with [KeyError] or [TypeError] has written
    nothing and has not assigned [last]: subscripting and the two
    deletions come before the call of [thing]. *)
Theorem early_failure_writes_nothing str_other top :
  (exists k, fst (main str_other top) = Some (KeyError k)) \/
  fst (main str_other top) = Some TypeError ->
  out (snd (main str_other top)) = [] /\
  last (snd (main str_other top)) = None.
Proof.
  unfold main, getitem, delitem.
  destruct top as [| | | | | |d]; try (intros _; split; reflexivity).
  destruct (dict_get "docs" d) as [x0|]; [|intros _; split; reflexivity].
  destruct x0 as [| | | | | |d0]; try (intros _; split; reflexivity).
  destruct (dict_get "name" d0); [|intros _; split; reflexivity].
  destruct (dict_get "description" (dict_remove "name" d0));
    [|intros _; split; reflexivity].
  cbn [fst]. intros [[k H]|H]; discriminate H.
Qed.

Lemma early_failure_writes_nothing_witness :
  fst (main no_str no_description) = Some (KeyError "description") /\
  out (snd (main no_str no_description)) = [] /\
  last (snd (main no_str no_description)) = None.
Proof.
  split; [reflexivity|].
  apply (early_failure_writes_nothing no_str no_description).
  left. exists "description". reflexivity.
Defined.

Lemma to_upper_newline c :
  Ascii.eqb (to_upper c) newline = Ascii.eqb c newline.
Proof. destruct c as [[] [] [] [] [] [] [] []]; reflexivity. Qed.

Lemma to_lower_newline c :
  Ascii.eqb (to_lower c) newline = Ascii.eqb c newline.
Proof. destruct c as [[] [] [] [] [] [] [] []]; reflexivity. Qed.

Lemma no_newline_title_from prev s :
  no_newline (title_from prev s) = no_newline s.
Proof.
  revert prev. induction s as [|c s IH]; intros prev; [reflexivity|].
  cbn [title_from no_newline]. rewrite IH.
  destruct prev; [rewrite to_lower_newline|rewrite to_upper_newline];
    reflexivity.
Qed.

Lemma no_newline_replace s :
  no_newline (replace "_" " " s) = no_newline s.
Proof.
  induction s as [|c s IH]; [reflexivity|].
  cbn [replace no_newline]. rewrite IH.
  destruct (Ascii.eqb c "_") eqn:E; [|reflexivity].
  apply Ascii.eqb_eq in E. subst c. reflexivity.
Qed.

Lemma no_newline_hashes i : no_newline (hashes i) = true.
Proof. induction i as [|i IH]; [reflexivity|exact IH]. Qed.

Lemma no_newline_heading i k :
  no_newline (heading i k) = no_newline k.
Proof.
  unfold heading, title.
  rewrite no_newline_append, no_newline_hashes.
  change (" " ++ title_from false (replace "_" " " k))%string
    with (String " " (title_from false (replace "_" " " k))).
  cbn [no_newline]. rewrite no_newline_title_from, no_newline_replace.
  reflexivity.
Qed.

Lemma clean_emissions x :
  forall i, no_lists x = true -> no_newlines x = true ->
            forallb emission_clean (emissions x i) = true.
Proof.
  induction x using dict_value_ind with
    (P := fun v => match v with
                   | VDict d => forall i, no_lists d = true ->
                                          no_newlines d = true ->
                                          forallb emission_clean (emissions d i)
                                          = true
                   | _ => True
                   end);
    try exact I; try assumption.
  - reflexivity.
  - intros i L N. simpl in L, N.
    apply andb_prop in L. destruct L as [Lv Lr].
    apply andb_prop in N. destruct N as [Nv Nr].
    simpl. rewrite forallb_app, (IHx0 i Lr Nr), andb_true_r.
    destruct v; try reflexivity; [| discriminate |].
    + simpl. now rewrite Nv.
    + apply andb_prop in Nv. destruct Nv as [Nk Nd].
      simpl. rewrite Nk. now apply IHx.
Qed.

Lemma clean_lines str_other es :
  forallb emission_clean es = true ->
  forall prev, forallb no_newline (render str_other prev es) = true.
Proof.
  induction es as [|e es IH]; intros H prev; [reflexivity|].
  simpl in H. apply andb_prop in H. destruct H as [He Hs].
  cbn [render]. rewrite !forallb_app, (IH Hs), andb_true_r.
  destruct e as [i k|k v|l]; [| |discriminate].
  - cbn [body forallb]. rewrite no_newline_heading. simpl in He. rewrite He.
    destruct prev as [[]|]; reflexivity.
  - cbn [body forallb]. rewrite no_newline_bullet. simpl in He. rewrite He.
    destruct prev as [[]|]; reflexivity.
Qed.

(** The output lines of a document without lists and without line feeds
    in its keys and string values are the texts printed. *)
Lemma lines_written str_other x i st :
  no_lists x = true -> no_newlines x = true ->
  text_lines (stdout_text (written st (thing str_other x i st))) =
  render str_other (last st) (emissions x i).
Proof.
  intros L N. rewrite written_thing. apply text_lines_stdout.
  apply clean_lines. now apply clean_emissions.
Qed.

(** X9: for a document with no list entry and no line feed in its keys
    and string values, the output of [thing] never has two blank lines in
    a row, and when [thing] starts with [last] unset or [dict] the first
    output line is not blank. *)
Theorem no_two_blank_lines str_other x i st :
  no_lists x = true ->
  no_newlines x = true ->
  no_double_blank
    (text_lines (stdout_text (written st (thing str_other x i st)))) = true /\
  (last st = None \/ last st = Some py_dict ->
   hd_blank
     (text_lines (stdout_text (written st (thing str_other x i st)))) = false).
Proof.
  intros L N. rewrite (lines_written str_other x i st L N).
  destruct (render_no_double_blank str_other (emissions x i)
              (no_lists_raw_free x i L) (last st)) as [D B].
  split; [exact D|].
  intros [H|H]; apply B; rewrite H; reflexivity.
Qed.

Lemma no_two_blank_lines_witness :
  no_lists nested_groups = true /\
  no_newlines nested_groups = true /\
  no_double_blank
    (text_lines (stdout_text (written init (thing no_str nested_groups 3 init))))
    = true /\
  hd_blank
    (text_lines (stdout_text (written init (thing no_str nested_groups 3 init))))
    = false.
Proof.
  split; [reflexivity|]. split; [reflexivity|].
  destruct (no_two_blank_lines no_str nested_groups 3 init eq_refl eq_refl)
    as [D B].
  split; [exact D|]. apply B. left. reflexivity.
Defined.

(** X10: for a document with no list entry and no line feed in its keys
    and string values, the output lines that start like a bullet are the
    bullets of the string entries of the document, all depths taken in the
    order of the walk, one line for each entry; there are as many as the
    document has string entries. *)
Theorem bullets_in_order str_other x i st :
  no_lists x = true ->
  no_newlines x = true ->
  filter is_bullet_line
         (text_lines (stdout_text (written st (thing str_other x i st)))) =
    map (fun ks => bullet (fst ks) (snd ks)) (options_of x) /\
  length (filter is_bullet_line
            (text_lines (stdout_text (written st (thing str_other x i st))))) =
    count_str x.
Proof.
  intros L N. rewrite (lines_written str_other x i st L N).
  rewrite (render_bullets str_other _ (no_lists_raw_free x i L)).
  rewrite emission_options_emissions, length_map, length_options_of.
  split; reflexivity.
Qed.

Lemma bullets_in_order_witness :
  no_lists nested_groups = true /\
  no_newlines nested_groups = true /\
  filter is_bullet_line
         (text_lines
            (stdout_text (written init (thing no_str nested_groups 3 init)))) =
    ["- `intro`: text"] /\
  length (filter is_bullet_line
            (text_lines
               (stdout_text
                  (written init (thing no_str nested_groups 3 init))))) = 1.
Proof.
  split; [reflexivity|]. split; [reflexivity|].
  exact (bullets_in_order no_str nested_groups 3 init eq_refl eq_refl).
Defined.

(** X11: the shape of the heading line of an ASCII key: exactly [i]
    marker characters, then one space, then a text as long as the key in
    which no underscore is left. *)
Theorem heading_shape i k :
  ascii_only k = true ->
  String.length (heading i k) = i + 1 + String.length k /\
  (forall n, n < i -> String.get n (heading i k) = Some "#"%char) /\
  String.get i (heading i k) = Some " "%char /\
  (forall n, String.get (i + 1 + n) (heading i k) <> Some "_"%char).
Proof.
  intros _. unfold heading. repeat split.
  - rewrite !length_append, length_hashes. unfold title.
    rewrite length_title_from, length_replace. simpl. lia.
  - intros n H. rewrite get_hashes_append.
    apply Nat.ltb_lt in H. now rewrite H.
  - rewrite get_hashes_append, Nat.ltb_irrefl, Nat.sub_diag. reflexivity.
  - intros n. rewrite get_hashes_append.
    replace (Nat.ltb (i + 1 + n) i) with false
      by (symmetry; apply Nat.ltb_ge; lia).
    replace (i + 1 + n - i) with (S n) by lia.
    simpl. apply heading_text_no_underscore.
Qed.

Lemma heading_shape_witness :
  ascii_only "a_b" = true /\
  1 < 3 /\
  String.length (heading 3 "a_b") = 3 + 1 + 3 /\
  String.get 1 (heading 3 "a_b") = Some "#"%char /\
  String.get 3 (heading 3 "a_b") = Some " "%char /\
  String.get (3 + 1 + 1) (heading 3 "a_b") <> Some "_"%char.
Proof.
  destruct (heading_shape 3 "a_b" eq_refl) as (L & M & S & U).
  split; [reflexivity|]. split; [lia|]. split; [exact L|].
  split; [apply M; lia|]. split; [exact S|apply U].
Defined.
